(** * The import command of the Strapi CLI

    A shallow embedding of
    [packages/core/strapi/lib/commands/actions/import/action.js]:
    the option mapping for the file source, the destination and the
    transfer engine, the default entity/link filter rules, the
    schema-diff handler and the command body itself.

    JavaScript values are modelled as far as the command looks at them
    (truthiness, property lookup, [isObject]); what the command calls in
    other packages is an external call whose answer is supplied by an
    environment. *)

From Stdlib Require Import ZArith List Bool Lia.
From stdpp Require Import base option list strings gmap.

Open Scope string_scope.
Set Warnings "-register-all".

(** ** JavaScript values *)

(** Numbers as far as truthiness distinguishes them: [NaN] and the
    integral values. *)
Inductive JsNumber : Type :=
| NaN
| Num (z : Z).

Inductive JsValue : Type :=
| JsUndefined
| JsNull
| JsBool (b : bool)
| JsNum (n : JsNumber)
| JsString (s : string)
| JsArray (xs : list JsValue)
| JsObject (props : gmap string JsValue).

(** ToBoolean: [undefined], [null], [false], [0], [NaN] and the empty
    string are falsy, every other value is truthy. *)
Definition truthy (v : JsValue) : bool :=
  match v with
  | JsUndefined | JsNull => false
  | JsBool b => b
  | JsNum NaN => false
  | JsNum (Num z) => negb (z =? 0)%Z
  | JsString s => negb (String.eqb s "")
  | JsArray _ | JsObject _ => true
  end.

(** [a || b] *)
Definition js_or (a b : JsValue) : JsValue :=
  if truthy a then a else b.

(** [!!a] *)
Definition js_bang_bang (a : JsValue) : bool := truthy a.

(** [o.k] on a value that passed [isObject]: a missing property reads
    as [undefined]. *)
Definition get (o : JsValue) (k : string) : JsValue :=
  match o with
  | JsObject props => default JsUndefined (props !! k)
  | _ => JsUndefined
  end.

(** lodash/fp [isObject]: objects and arrays, not [null], not primitives. *)
Definition isObject (v : JsValue) : bool :=
  match v with
  | JsArray _ | JsObject _ => true
  | _ => false
  end.

(** ** Data model of the transfer *)

Record EntityRef : Type := { ref_type : string; ref_id : JsValue }.

Record Entity : Type := {
  type : string;
  id : JsValue;
  attributes : gmap string JsValue;
}.

Record Link : Type := {
  left : EntityRef;
  right : EntityRef;
  kind : string;
}.

(** [Array.prototype.includes] on an array of strings (SameValueZero on
    strings is string equality). *)
Fixpoint includes (xs : list string) (x : string) : bool :=
  match xs with
  | [] => false
  | y :: ys => if String.eqb y x then true else includes ys x
  end.

(** ** Provider and engine options *)

Record ILocalFileSourceProviderOptions : Type := {
  file_path : JsValue;
  compression_enabled : bool;
  encryption_enabled : bool;
  encryption_key : JsValue;
}.

(** [getLocalFileSourceOptions] *)
Definition getLocalFileSourceOptions (opts : JsValue)
  : ILocalFileSourceProviderOptions :=
  {| file_path := get opts "file";
     compression_enabled := js_bang_bang (get opts "decompress");
     encryption_enabled := js_bang_bang (get opts "decrypt");
     encryption_key := get opts "key" |}.

(** The handle returned by [createStrapiInstance]. *)
Record StrapiInstance : Type := { instance_id : nat }.

Record DestinationOptions : Type := {
  getStrapi : StrapiInstance;
  autoDestroy : bool;
  strategy : JsValue;
  restore_entities_exclude : list string;
}.

Record Rules : Type := {
  links : list (Link -> bool);
  entities : list (Entity -> bool);
}.

Record EngineOptions : Type := {
  versionStrategy : JsValue;
  schemaStrategy : JsValue;
  exclude : JsValue;
  only : JsValue;
  throttle : JsValue;
  rules : Rules;
}.

(** The engine keeps an item when every registered predicate of its
    stage accepts it. *)
Definition applyRules {A : Type} (preds : list (A -> bool)) (item : A) : bool :=
  forallb (fun p => p item) preds.

(** ** External calls and the world they act on *)

(** A reference to a heap-allocated JavaScript object. *)
Definition Ref : Type := nat.

(** The two closures the command installs with [setSignalHandler]. *)
Inductive SignalHandler : Type :=
| AbortTransferThenExit
| AbortTransfer.

(** Settled state of an awaited promise. *)
Inductive Completion (A : Type) : Type :=
| Resolved (a : A)
| Rejected (e : JsValue).
Arguments Resolved {A} a.
Arguments Rejected {A} e.

Record Source : Type := { source_options : ILocalFileSourceProviderOptions }.
Record Destination : Type := { destination_options : DestinationOptions }.
Record Engine : Type := {
  engine_source : Source;
  engine_destination : Destination;
  engine_options : EngineOptions;
}.

Inductive Call : Type -> Type :=
| CreateLocalFileSourceProvider (o : ILocalFileSourceProviderOptions) : Call Source
| CreateStrapiInstance : Call StrapiInstance
| CreateLocalStrapiDestinationProvider (o : DestinationOptions) : Call Destination
| CreateTransferEngine (s : Source) (d : Destination) (o : EngineOptions) : Call Engine
| OnDiagnostic (formatter : string) : Call unit
| LoadersFactory : Call unit
| OnSchemaDiff : Call unit
| ProgressOn (event : string) : Call unit
| SetSignalHandler (h : SignalHandler) : Call unit
| EngineTransfer (e : Engine) : Call (Completion JsValue)
| TelemetrySend (event : string) : Call unit
| BuildTransferTable (resultData : JsValue) : Call (option string)
| ConsoleLog (s : string) : Call unit
| ConsoleError (s : string) : Call unit
| StrapiDestroy : Call unit
| ConfirmMessage (message : string) (force : JsValue) : Call bool
| AssignDiffs (context : Ref) (v : JsValue) : Call unit
| Next (context : Ref) : Call JsValue.

(** The calls the command body and the schema-diff handler make
    themselves, in order; an event carries the answer the call received.
    [EvNext] also carries the state of the context object at the moment
    [next] is called. What the engine does while [transfer] runs, calling
    the listeners and the handler registered with it, is not part of a
    run of the command body. *)
Inductive Event : Type :=
| EvCreateSource (o : ILocalFileSourceProviderOptions)
| EvCreateStrapiInstance
| EvCreateDestination (o : DestinationOptions)
| EvCreateEngine (o : EngineOptions)
| EvOnDiagnostic (formatter : string)
| EvLoadersFactory
| EvOnSchemaDiff
| EvProgressOn (event : string)
| EvSetSignalHandler (h : SignalHandler)
| EvTransfer (settled : Completion JsValue)
| EvTelemetry (event : string)
| EvBuildTransferTable (resultData : JsValue) (rendered : option string)
| EvConsoleLog (s : string)
| EvConsoleError (s : string)
| EvDestroy
| EvConfirmMessage (message : string) (force : JsValue) (answer : bool)
| EvAssignDiffs (context : Ref) (v : JsValue)
| EvNext (context : Ref) (snapshot : option (gmap string JsValue))
| EvExit (code : Z) (message : string).

(** The mutable state the command and the handler share with the engine:
    the objects on the heap and the installed signal handler. *)
Record World : Type := {
  heap : gmap Ref (gmap string JsValue);
  signalHandler : option SignalHandler;
}.

(** [context.diffs = v] on the object [r] points to. *)
Definition assign_diffs (r : Ref) (v : JsValue) (w : World) : World :=
  {| heap := alter (insert "diffs" v) r (heap w);
     signalHandler := signalHandler w |}.

Definition set_signal (h : SignalHandler) (w : World) : World :=
  {| heap := heap w; signalHandler := Some h |}.

(** The answers of the outside world: the prompt, the engine, the table
    renderer ([None] when building or rendering throws) and the engine's
    continuation. *)
Record Env : Type := {
  env_createStrapiInstance : World -> StrapiInstance;
  env_confirmMessage : string -> JsValue -> World -> bool;
  env_transfer : Engine -> World -> Completion JsValue;
  env_buildTransferTable : JsValue -> World -> option string;
  env_next : Ref -> World -> JsValue;
}.

(** One call: its answer, the world after it and the event it leaves.
    Only [engine.transfer()] and the building of the table sit in a
    [try] block and have a failing answer here; the other calls are
    taken to return. *)
Definition step (env : Env) {X : Type} (c : Call X) (w : World)
  : X * World * Event :=
  match c in Call X return X * World * Event with
  | CreateLocalFileSourceProvider o =>
      ({| source_options := o |}, w, EvCreateSource o)
  | CreateStrapiInstance =>
      (env_createStrapiInstance env w, w, EvCreateStrapiInstance)
  | CreateLocalStrapiDestinationProvider o =>
      ({| destination_options := o |}, w, EvCreateDestination o)
  | CreateTransferEngine s d o =>
      ({| engine_source := s; engine_destination := d; engine_options := o |},
       w, EvCreateEngine o)
  | OnDiagnostic f => (tt, w, EvOnDiagnostic f)
  | LoadersFactory => (tt, w, EvLoadersFactory)
  | OnSchemaDiff => (tt, w, EvOnSchemaDiff)
  | ProgressOn e => (tt, w, EvProgressOn e)
  | SetSignalHandler h => (tt, set_signal h w, EvSetSignalHandler h)
  | EngineTransfer e =>
      let settled := env_transfer env e w in (settled, w, EvTransfer settled)
  | TelemetrySend e => (tt, w, EvTelemetry e)
  | BuildTransferTable d =>
      let rendered := env_buildTransferTable env d w in
      (rendered, w, EvBuildTransferTable d rendered)
  | ConsoleLog s => (tt, w, EvConsoleLog s)
  | ConsoleError s => (tt, w, EvConsoleError s)
  | StrapiDestroy => (tt, w, EvDestroy)
  | ConfirmMessage m f =>
      let answer := env_confirmMessage env m f w in
      (answer, w, EvConfirmMessage m f answer)
  | AssignDiffs r v => (tt, assign_diffs r v w, EvAssignDiffs r v)
  | Next r => (env_next env r w, w, EvNext r (heap w !! r))
  end.

(** ** Programs: sequences of calls *)

(** Modelled from the spec: [exitWith] of [utils/helpers] is not part of
    this file; the command relies on it to end the process with the given
    exit code (after reporting the message), so nothing after it runs. *)
Inductive Prog (A : Type) : Type :=
| Ret (a : A)
| ExitWith (code : Z) (message : string)
| Do {X : Type} (c : Call X) (k : X -> Prog A).
Arguments Ret {A} a.
Arguments ExitWith {A} code message.
Arguments Do {A X} c k.

Fixpoint prog_bind {A B : Type} (f : A -> Prog B) (p : Prog A) : Prog B :=
  match p with
  | Ret a => f a
  | ExitWith code message => ExitWith code message
  | Do c k => Do c (fun x => prog_bind f (k x))
  end.

#[export] Instance Prog_ret : MRet Prog := @Ret.
#[export] Instance Prog_bind : MBind Prog := @prog_bind.

Definition call {X : Type} (c : Call X) : Prog X := Do c Ret.

Inductive Outcome (A : Type) : Type :=
| Returned (a : A)
| Exited (code : Z).
Arguments Returned {A} a.
Arguments Exited {A} code.

Record Run (A : Type) : Type := {
  outcome : Outcome A;
  world : World;
  events : list Event;
}.
Arguments outcome {A} r.
Arguments world {A} r.
Arguments events {A} r.

Fixpoint run (env : Env) {A : Type} (p : Prog A) (w : World) : Run A :=
  match p with
  | Ret a => {| outcome := Returned a; world := w; events := [] |}
  | ExitWith code message =>
      {| outcome := Exited code; world := w; events := [EvExit code message] |}
  | Do c k =>
      let '(x, w', e) := step env c w in
      let r := run env (k x) w' in
      {| outcome := outcome r; world := world r; events := e :: events r |}
  end.

(** The prompt of the schema-diff handler. *)
Definition schemaDiffMessage : string :=
  "There are differences in schema between the source and destination, and the data listed above will be lost. Are you sure you want to continue?".

Definition displayErrorMessage : string :=
  "There was an error displaying the results of the transfer.".

(** Number of times [next] is called in a sequence of events. *)
Definition isNext (e : Event) : bool :=
  match e with
  | EvNext _ _ => true
  | _ => false
  end.

Definition nextCalls (es : list Event) : nat :=
  length (List.filter isNext es).

(** How an option with a default resolves: an unset option and any other
    falsy value give the default, a truthy value is kept. *)
Definition defaulted (supplied default resolved : JsValue) : Prop :=
  (supplied = JsUndefined → resolved = default)
  ∧ (truthy supplied = false → resolved = default)
  ∧ (truthy supplied = true → resolved = supplied).

(** Counting the transfers in a run. *)
Definition isTransfer (e : Event) : bool :=
  match e with
  | EvTransfer _ => true
  | _ => false
  end.

Definition transferCalls (es : list Event) : nat :=
  length (List.filter isTransfer es).

(** [a] happens before [b] in a sequence of events. *)
Definition precedes (a b : Event) (es : list Event) : Prop :=
  ∃ i j : nat, (i < j)%nat ∧ es !! i = Some a ∧ es !! j = Some b.

(** The property [k] of the object [r] points to, if both exist. *)
Definition property (w : World) (r : Ref) (k : string) : option JsValue :=
  heap w !! r ≫= (λ obj, obj !! k).

(** The option keys the engine and the destination are configured from. *)
Definition transferOptionKeys : list string :=
  ["conflictStrategy"; "versionStrategy"; "schemaStrategy";
   "exclude"; "only"; "throttle"].

(** The option keys the file source is configured from. *)
Definition sourceOptionKeys : list string :=
  ["file"; "decompress"; "decrypt"; "key"].

(** [results] is [undefined] or [null], so that [results.engine] throws. *)
Definition isNullish (v : JsValue) : bool :=
  match v with
  | JsUndefined | JsNull => true
  | _ => false
  end.

(** [items.filter(rule)] with a JavaScript function as the rule: the rule
    is called on every item in order, and whatever it does besides
    returning its verdict happens in that order. *)
Fixpoint js_filter {A : Type} (rule : A -> Prog bool) (items : list A)
  : Prog (list A) :=
  match items with
  | [] => Ret (@nil A)
  | item :: rest =>
      keep ← rule item;
      kept ← js_filter rule rest;
      Ret (if (keep : bool) then item :: kept else kept)
  end.

(** [process[0].toUpperCase() + process.slice(1)] *)
Definition capitalize (s : string) : string :=
  match s with
  | EmptyString => EmptyString
  | String c rest =>
      let n := Ascii.nat_of_ascii c in
      String (if (97 <=? n)%nat && (n <=? 122)%nat
              then Ascii.ascii_of_nat (n - 32) else c) rest
  end.

(** ** Sample data *)

(** The ignored content types as [utils/data-transfer] lists them. *)
Definition sample_ignored : list string :=
  ["admin::permission"; "admin::user"; "admin::role"; "admin::api-token";
   "admin::api-token-permission"; "admin::transfer-token";
   "admin::transfer-token-permission"; "admin::audit-log"].

Definition sample_exitMessageText (process : string) (error : bool) : string :=
  if error then capitalize process ++ " process failed."
  else capitalize process ++ " process has been completed successfully!".

Definition sample_article : Entity :=
  {| type := "api::article.article"; id := JsNum (Num 1); attributes := ∅ |}.

Definition sample_admin_user : Entity :=
  {| type := "admin::user"; id := JsNum (Num 1); attributes := ∅ |}.

(** An article related to its category. *)
Definition sample_link : Link :=
  {| left := {| ref_type := "api::article.article"; ref_id := JsNum (Num 1) |};
     right := {| ref_type := "api::category.category"; ref_id := JsNum (Num 7) |};
     kind := "relation.basic" |}.

(** The context object of a schema stage that found one difference. *)
Definition sample_context : gmap string JsValue :=
  {[ "diffs" := JsArray [JsString "api::article.article.attributes.title"] ]}.

Definition sample_world : World :=
  {| heap := {[ 0%nat := sample_context ]}; signalHandler := None |}.

(** A run in which the user answers the prompt with [answer], the
    transfer settles as [settled] and the table renders as [rendered]. *)
Definition sample_env (answer : bool) (settled : Completion JsValue)
    (rendered : option string) : Env :=
  {| env_createStrapiInstance := fun _ => {| instance_id := 1 |};
     env_confirmMessage := fun _ _ _ => answer;
     env_transfer := fun _ _ => settled;
     env_buildTransferTable := fun _ _ => rendered;
     env_next := fun _ _ => JsUndefined |}.

Definition sample_results : JsValue :=
  JsObject {[ "engine" := JsObject ∅ ]}.

(** What a transfer resolves with when it carries no [engine] data:
    [buildTransferTable(undefined)] gives no table to render. *)
Definition sample_results_without_engine : JsValue :=
  JsObject {[ "source" := JsObject ∅; "destination" := JsObject ∅ ]}.

(** Defaults as [@strapi/data-transfer] declares them. *)
Definition sample_conflict_strategy : JsValue := JsString "restore".
Definition sample_version_strategy : JsValue := JsString "ignore".
Definition sample_schema_strategy : JsValue := JsString "strict".

(** [strapi import -f backup.tar.gz.enc --key secret] after the
    pre-action hook inferred [decrypt] and [decompress], with one
    strategy given. *)
Definition sample_opts : JsValue :=
  JsObject {[ "file" := JsString "backup.tar.gz.enc";
              "key" := JsString "secret";
              "decrypt" := JsBool true;
              "decompress" := JsBool true;
              "versionStrategy" := JsString "exact" ]}.

(** Options in which the conflict strategy is the empty string. *)
Definition sample_opts_empty_strategy : JsValue :=
  JsObject {[ "file" := JsString "backup.tar";
              "conflictStrategy" := JsString "" ]}.

(** A context object with more than its diff list, next to another
    object on the heap. *)
Definition sample_context_full : gmap string JsValue :=
  {[ "diffs" := JsArray [JsString "api::article.article.attributes.title"];
     "ignoredDiffs" := JsObject ∅ ]}.

Definition sample_world_full : World :=
  {| heap := {[ 0%nat := sample_context_full;
                1%nat := {[ "diffs" := JsArray [JsString "other"] ]} ]};
     signalHandler := Some AbortTransfer |}.

(** A world in which the diff list of the context is already empty. *)
Definition sample_world_cleared : World :=
  {| heap := {[ 0%nat := {[ "diffs" := JsArray [] ]} ]};
     signalHandler := None |}.

Section ImportCommand.

Set Default Proof Using "Type".

(** Constants imported from [@strapi/data-transfer] and from
    [utils/data-transfer]; their values are not part of this file. *)
Variable DEFAULT_CONFLICT_STRATEGY : JsValue.
Variable DEFAULT_VERSION_STRATEGY : JsValue.
Variable DEFAULT_SCHEMA_STRATEGY : JsValue.
Variable DEFAULT_IGNORED_CONTENT_TYPES : list string.

(** [exitMessageText(process, error)] of [utils/data-transfer]; a call
    without the second argument is a call with [false]. *)
Variable exitMessageText : string -> bool -> string.

(** [rules.links[0].filter] *)
Definition linkFilter (link : Link) : bool :=
  negb (includes DEFAULT_IGNORED_CONTENT_TYPES (ref_type (left link)))
  && negb (includes DEFAULT_IGNORED_CONTENT_TYPES (ref_type (right link))).

(** [rules.entities[0].filter] *)
Definition entityFilter (entity : Entity) : bool :=
  negb (includes DEFAULT_IGNORED_CONTENT_TYPES (type entity)).

(** [rules.links[0].filter] as the function the engine calls: its body
    calls nothing outside and assigns nothing, it returns the value of
    its expression. *)
Definition linkFilterCall (link : Link) : Prog bool :=
  Ret (negb (includes DEFAULT_IGNORED_CONTENT_TYPES (ref_type (left link)))
       && negb (includes DEFAULT_IGNORED_CONTENT_TYPES (ref_type (right link)))).

(** [rules.entities[0].filter] as the function the engine calls. *)
Definition entityFilterCall (entity : Entity) : Prog bool :=
  Ret (negb (includes DEFAULT_IGNORED_CONTENT_TYPES (type entity))).

(** [destinationOptions] *)
Definition destinationOptions (strapiInstance : StrapiInstance)
    (opts : JsValue) : DestinationOptions :=
  {| getStrapi := strapiInstance;
     autoDestroy := false;
     strategy := js_or (get opts "conflictStrategy") DEFAULT_CONFLICT_STRATEGY;
     restore_entities_exclude := DEFAULT_IGNORED_CONTENT_TYPES |}.

(** [engineOptions] *)
Definition engineOptions (opts : JsValue) : EngineOptions :=
  {| versionStrategy := js_or (get opts "versionStrategy") DEFAULT_VERSION_STRATEGY;
     schemaStrategy := js_or (get opts "schemaStrategy") DEFAULT_SCHEMA_STRATEGY;
     exclude := get opts "exclude";
     only := get opts "only";
     throttle := get opts "throttle";
     rules := {| links := [linkFilter]; entities := [entityFilter] |} |}.

(** The handler registered with [engine.onSchemaDiff]. It closes over
    [opts]; [context] is the object the engine hands in and [next] is
    the engine's continuation, reached through the [Next] call. *)
Definition schemaDiffHandler (opts : JsValue) (context : Ref) : Prog JsValue :=
  call (SetSignalHandler AbortTransferThenExit);;
  confirmed ← call (ConfirmMessage schemaDiffMessage (get opts "force"));
  call (SetSignalHandler AbortTransfer);;
  if (confirmed : bool) then
    call (AssignDiffs context (JsArray []));;
    call (Next context)
  else
    call (Next context).

(** The second [try] block: [results.engine] throws on [undefined] and
    [null]; building or rendering the table may throw as well. *)
Definition displayResults (results : JsValue) : Prog unit :=
  match results with
  | JsUndefined | JsNull =>
      call (ConsoleError displayErrorMessage)
  | _ =>
      table ← call (BuildTransferTable (get results "engine"));
      match table with
      | Some text => call (ConsoleLog text)
      | None =>
          call (ConsoleError displayErrorMessage)
      end
  end.

(** [module.exports] *)
Definition importAction (opts : JsValue) : Prog unit :=
  if negb (isObject opts) then ExitWith 1 "Could not parse arguments"
  else
    source ← call (CreateLocalFileSourceProvider (getLocalFileSourceOptions opts));
    strapiInstance ← call CreateStrapiInstance;
    destination ← call (CreateLocalStrapiDestinationProvider
                          (destinationOptions strapiInstance opts));
    engine ← call (CreateTransferEngine source destination (engineOptions opts));
    call (OnDiagnostic "import");;
    call LoadersFactory;;
    call OnSchemaDiff;;
    call (ProgressOn "stage::start");;
    call (ProgressOn "stage::finish");;
    call (ProgressOn "stage::progress");;
    call (ProgressOn "transfer::start");;
    call (SetSignalHandler AbortTransfer);;
    settled ← call (EngineTransfer engine);
    match settled with
    | Rejected _ =>
        call (TelemetrySend "didDEITSProcessFail");;
        ExitWith 1 (exitMessageText "import" true)
    | Resolved results =>
        displayResults results;;
        call (TelemetrySend "didDEITSProcessFinish");;
        call StrapiDestroy;;
        ExitWith 0 (exitMessageText "import" false)
    end.

(** ** Proof steps on explicit event lists *)

(** Decompose membership in an explicit list of events. *)
Ltac in_events H :=
  simpl in H;
  repeat match type of H with
         | _ ∨ _ => destruct H as [H|H]
         end;
  try discriminate H; try contradiction.

(** An event is not in an explicit list of events. *)
Ltac not_in_events :=
  let H := fresh "Hin" in
  intros; intros H; in_events H.

(** An explicit list of events ends with the given ones. *)
Ltac suffix_events :=
  match goal with
  | |- ∃ before, ?es = (before ++ ?suf)%list =>
      exists (take (length es - length suf) es); reflexivity
  end.

(** One event precedes another at the given positions. *)
Ltac precedes_at i j :=
  exists i, j; split; [lia | split; reflexivity].

(** ** Properties of the filter rules *)

Lemma includes_elem_of (xs : list string) (x : string) :
  includes xs x = true ↔ x ∈ xs.
Proof.
  induction xs as [|y ys IH]; simpl.
  - split; [discriminate | intros H; inversion H].
  - destruct (String.eqb_spec y x) as [->|Hne].
    + split; [intros _; left | reflexivity].
    + rewrite IH, elem_of_cons. split; [intros H; right; exact H|].
      intros [Heq|H]; [symmetry in Heq; contradiction | exact H].
Qed.

Lemma not_includes_elem_of (xs : list string) (x : string) :
  negb (includes xs x) = true ↔ x ∉ xs.
Proof.
  rewrite negb_true_iff, <- includes_elem_of.
  destruct (includes xs x); split; congruence.
Qed.

Lemma filter_twice {A : Type} (p : A -> bool) (l : list A) :
  List.filter p (List.filter p l) = List.filter p l.
Proof.
  induction l as [|x l IH]; simpl; [reflexivity|].
  destruct (p x) eqn:Hp; simpl; [rewrite Hp, IH|]; auto.
Qed.

(** Running [p] and then [f] on its value: the events of [p] come first,
    and an exit in [p] ends the run before [f]. *)
Lemma run_bind (env : Env) {A B : Type} (p : Prog A) (f : A -> Prog B)
    (w : World) :
  run env (prog_bind f p) w
  = match outcome (run env p w) with
    | Returned a =>
        {| outcome := outcome (run env (f a) (world (run env p w)));
           world := world (run env (f a) (world (run env p w)));
           events := (events (run env p w)
                      ++ events (run env (f a) (world (run env p w))))%list |}
    | Exited code =>
        {| outcome := Exited code;
           world := world (run env p w);
           events := events (run env p w) |}
    end.
Proof.
  revert w. induction p as [a|code message|X c k IH]; intros w; simpl.
  - destruct (run env (f a) w); reflexivity.
  - reflexivity.
  - destruct (step env c w) as [[x w'] e]. rewrite IH.
    destruct (outcome (run env (k x) w')); reflexivity.
Qed.

(** Filtering with a rule that only computes its verdict is the list
    filter, and leaves no trace. *)
Lemma run_js_filter (env : Env) {A : Type} (rule : A -> Prog bool)
    (p : A -> bool) (items : list A) (w : World) :
  (∀ item, rule item = Ret (p item)) →
  run env (js_filter rule items) w
  = {| outcome := Returned (List.filter p items); world := w; events := [] |}.
Proof.
  intros Hrule. induction items as [|item rest IH]; simpl; [reflexivity|].
  rewrite Hrule. unfold mbind, Prog_bind. simpl.
  rewrite run_bind, IH. simpl. destruct (p item); reflexivity.
Qed.

Lemma entity_rules_accept (opts : JsValue) (entity : Entity) :
  applyRules (entities (rules (engineOptions opts))) entity = true
  ↔ (type entity ∉ DEFAULT_IGNORED_CONTENT_TYPES).
Proof.
  simpl. rewrite andb_true_r.
  unfold entityFilter. apply not_includes_elem_of.
Qed.

Lemma link_rules_accept (opts : JsValue) (link : Link) :
  applyRules (links (rules (engineOptions opts))) link = true
  ↔ (ref_type (left link) ∉ DEFAULT_IGNORED_CONTENT_TYPES)
    ∧ (ref_type (right link) ∉ DEFAULT_IGNORED_CONTENT_TYPES).
Proof.
  simpl. rewrite andb_true_r.
  unfold linkFilter. rewrite andb_true_iff.
  rewrite !not_includes_elem_of. reflexivity.
Qed.

(** C4: the registered entity rules accept an entity exactly when its
    type is not in [DEFAULT_IGNORED_CONTENT_TYPES], and the registered
    link rules accept a link exactly when neither endpoint type is. *)
Theorem default_rules_exclude_ignored_types (opts : JsValue) :
  (∀ entity : Entity,
      applyRules (entities (rules (engineOptions opts))) entity = true
      ↔ (type entity ∉ DEFAULT_IGNORED_CONTENT_TYPES))
  ∧ (∀ link : Link,
      applyRules (links (rules (engineOptions opts))) link = true
      ↔ (ref_type (left link) ∉ DEFAULT_IGNORED_CONTENT_TYPES)
        ∧ (ref_type (right link) ∉ DEFAULT_IGNORED_CONTENT_TYPES)).
Proof.
  split.
  - intros entity. apply entity_rules_accept.
  - intros link. apply link_rules_accept.
Qed.

(** C5: a link the registered link rules accept has both endpoint types
    accepted by the registered entity rules: every entity of either
    endpoint type passes the entity filter. *)
Theorem accepted_link_has_accepted_endpoints
    (opts : JsValue) (link : Link) (entity : Entity) :
  applyRules (links (rules (engineOptions opts))) link = true →
  type entity = ref_type (left link) ∨ type entity = ref_type (right link) →
  applyRules (entities (rules (engineOptions opts))) entity = true.
Proof.
  intros Hlink Hty.
  apply link_rules_accept in Hlink. apply entity_rules_accept.
  destruct Hlink as [Hl Hr]. destruct Hty as [-> | ->]; assumption.
Qed.


(** ** Properties of the option mapping *)

(** C10: [getLocalFileSourceOptions] maps the command options field by
    field, the same way whatever the environment and the world are; a key
    without [decrypt] leaves encryption disabled. *)
Theorem getLocalFileSourceOptions_fields (opts : JsValue) :
  file_path (getLocalFileSourceOptions opts) = get opts "file"
  ∧ compression_enabled (getLocalFileSourceOptions opts)
    = truthy (get opts "decompress")
  ∧ encryption_enabled (getLocalFileSourceOptions opts)
    = truthy (get opts "decrypt")
  ∧ encryption_key (getLocalFileSourceOptions opts) = get opts "key"
  ∧ (∀ (m : gmap string JsValue) (k : JsValue),
       encryption_enabled
         (getLocalFileSourceOptions (JsObject (<["key" := k]> (delete "decrypt" m))))
       = false
       ∧ encryption_key
           (getLocalFileSourceOptions (JsObject (<["key" := k]> (delete "decrypt" m))))
         = k)
  ∧ (∀ (env : Env) (w : World) (m : gmap string JsValue),
       head (events (run env (importAction (JsObject m)) w))
       = Some (EvCreateSource (getLocalFileSourceOptions (JsObject m)))).
Proof.
  repeat split; try reflexivity.
  - unfold getLocalFileSourceOptions, js_bang_bang, get; simpl.
    rewrite lookup_insert_ne by discriminate.
    rewrite lookup_delete_eq. reflexivity.
  - unfold getLocalFileSourceOptions, get; simpl.
    rewrite lookup_insert_eq. reflexivity.
Qed.

(** The events of the command up to the creation of the engine. *)
Lemma importAction_run (env : Env) (opts : JsValue) (w : World) :
  isObject opts = true →
  ∃ rest,
    events (run env (importAction opts) w)
    = EvCreateSource (getLocalFileSourceOptions opts)
      :: EvCreateStrapiInstance
      :: EvCreateDestination (destinationOptions (env_createStrapiInstance env w) opts)
      :: EvCreateEngine (engineOptions opts)
      :: rest
    ∧ ∀ e, In e rest →
           match e with
           | EvCreateSource _ | EvCreateDestination _ | EvCreateEngine _ => False
           | _ => True
           end.
Proof.
  intros Hobj. unfold importAction. rewrite Hobj. cbn.
  destruct (env_transfer env _ _) as [results|err]; cbn.
  - destruct results; cbn;
      try destruct (env_buildTransferTable env _ _); cbn;
      (eexists; split; [reflexivity|]);
      intros e He; in_events He; subst e; exact I.
  - eexists; split; [reflexivity|].
    intros e He; in_events He; subst e; exact I.
Qed.

(** C7: whatever the options, the destination provider the command
    creates is configured from [destinationOptions], whose
    [restore.entities.exclude] is [DEFAULT_IGNORED_CONTENT_TYPES]. *)
Theorem destination_excludes_ignored_types
    (env : Env) (opts : JsValue) (w : World) (o : DestinationOptions) :
  In (EvCreateDestination o) (events (run env (importAction opts) w)) →
  restore_entities_exclude o = DEFAULT_IGNORED_CONTENT_TYPES
  ∧ o = destinationOptions (getStrapi o) opts.
Proof.
  intros Hin. destruct (isObject opts) eqn:Hobj.
  - destruct (importAction_run env opts w Hobj) as (rest & Hev & Hrest).
    rewrite Hev in Hin. simpl in Hin.
    destruct Hin as [Hin|[Hin|[Hin|[Hin|Hin]]]]; try discriminate Hin.
    + injection Hin as <-. split; reflexivity.
    + apply Hrest in Hin. contradiction.
  - unfold importAction in Hin. rewrite Hobj in Hin. in_events Hin.
Qed.

(** C6 as amended: the destination and the engine the command creates
    get each strategy resolved from the options, an unset or otherwise
    falsy field giving the default and a truthy value being kept. *)
Theorem strategies_default_when_falsy
    (env : Env) (opts : JsValue) (w : World)
    (od : DestinationOptions) (oe : EngineOptions) :
  In (EvCreateDestination od) (events (run env (importAction opts) w)) →
  In (EvCreateEngine oe) (events (run env (importAction opts) w)) →
  defaulted (get opts "conflictStrategy") DEFAULT_CONFLICT_STRATEGY (strategy od)
  ∧ defaulted (get opts "versionStrategy") DEFAULT_VERSION_STRATEGY (versionStrategy oe)
  ∧ defaulted (get opts "schemaStrategy") DEFAULT_SCHEMA_STRATEGY (schemaStrategy oe).
Proof.
  intros Hd He. destruct (isObject opts) eqn:Hobj.
  - destruct (importAction_run env opts w Hobj) as (rest & Hev & Hrest).
    rewrite Hev in Hd, He. simpl in Hd, He.
    destruct Hd as [Hd|[Hd|[Hd|[Hd|Hd]]]]; try discriminate Hd;
      [|apply Hrest in Hd; contradiction].
    destruct He as [He|[He|[He|[He|He]]]]; try discriminate He;
      [|apply Hrest in He; contradiction].
    injection Hd as <-. injection He as <-.
    unfold defaulted; simpl; unfold js_or.
    repeat split; try (intros ->; reflexivity); intros ->; reflexivity.
  - unfold importAction in Hd. rewrite Hobj in Hd. in_events Hd.
Qed.

(** ** Properties of the schema-diff handler *)

(** C1: when the prompt is answered with yes, the handler empties
    [context.diffs] and then calls [next] on that same context, whose
    diff list is empty at that moment; it returns what [next] returns. *)
Theorem handler_confirmed_clears_diffs_and_resumes
    (env : Env) (opts : JsValue) (context : Ref) (w : World)
    (obj : gmap string JsValue) :
  heap w !! context = Some obj →
  In (EvConfirmMessage schemaDiffMessage (get opts "force") true)
     (events (run env (schemaDiffHandler opts context) w)) →
  heap (world (run env (schemaDiffHandler opts context) w)) !! context
  = Some (<["diffs" := JsArray []]> obj)
  ∧ events (run env (schemaDiffHandler opts context) w)
    = [EvSetSignalHandler AbortTransferThenExit;
       EvConfirmMessage schemaDiffMessage (get opts "force") true;
       EvSetSignalHandler AbortTransfer;
       EvAssignDiffs context (JsArray []);
       EvNext context (Some (<["diffs" := JsArray []]> obj))]
  ∧ get (JsObject (<["diffs" := JsArray []]> obj)) "diffs" = JsArray []
  ∧ outcome (run env (schemaDiffHandler opts context) w)
    = Returned (env_next env context
                  (world (run env (schemaDiffHandler opts context) w))).
Proof.
  intros Hctx Hyes. unfold schemaDiffHandler in *. cbn in *.
  destruct (env_confirmMessage env _ _ _); cbn in *.
  - rewrite lookup_alter_eq, Hctx. simpl.
    rewrite lookup_insert_eq. repeat split; reflexivity.
  - in_events Hyes.
Qed.

(** C2: when the prompt is answered with no, the handler assigns nothing
    to [context.diffs]: the heap is as it was, and the one context it
    hands to [next] still carries the same non-empty diff list. *)
Theorem handler_declined_keeps_diffs
    (env : Env) (opts : JsValue) (context : Ref) (w : World)
    (obj : gmap string JsValue) (d : JsValue) (ds : list JsValue) :
  heap w !! context = Some obj →
  obj !! "diffs" = Some (JsArray (d :: ds)) →
  In (EvConfirmMessage schemaDiffMessage (get opts "force") false)
     (events (run env (schemaDiffHandler opts context) w)) →
  heap (world (run env (schemaDiffHandler opts context) w)) = heap w
  ∧ (∀ r v, ¬ In (EvAssignDiffs r v)
                 (events (run env (schemaDiffHandler opts context) w)))
  ∧ In (EvNext context (Some obj))
       (events (run env (schemaDiffHandler opts context) w))
  ∧ (∀ r snapshot,
       In (EvNext r snapshot)
          (events (run env (schemaDiffHandler opts context) w)) →
       r = context ∧ snapshot = Some obj
       ∧ get (JsObject obj) "diffs" = JsArray (d :: ds)
       ∧ get (JsObject obj) "diffs" ≠ JsArray []).
Proof.
  intros Hctx Hdiffs Hno. unfold schemaDiffHandler in *. cbn in *.
  destruct (env_confirmMessage env _ _ _); cbn in *.
  - in_events Hno.
  - split; [reflexivity|]. split.
    { intros r v Hin. in_events Hin. }
    split.
    { rewrite Hctx. auto 6. }
    intros r snapshot Hin. in_events Hin.
    injection Hin as <- <-. rewrite Hctx, Hdiffs. simpl.
    repeat split; discriminate.
Qed.

(** C3: whatever the answer to the prompt, the handler calls [next]
    exactly once, on the context it was given and as its last action,
    and returns with the value of that call. *)
Theorem handler_calls_next_exactly_once
    (env : Env) (opts : JsValue) (context : Ref) (w : World) :
  nextCalls (events (run env (schemaDiffHandler opts context) w)) = 1%nat
  ∧ last (events (run env (schemaDiffHandler opts context) w))
    = Some (EvNext context
              (heap (world (run env (schemaDiffHandler opts context) w)) !! context))
  ∧ outcome (run env (schemaDiffHandler opts context) w)
    = Returned (env_next env context
                  (world (run env (schemaDiffHandler opts context) w))).
Proof.
  unfold schemaDiffHandler. cbn.
  destruct (env_confirmMessage env _ _ _); cbn; repeat split; reflexivity.
Qed.

(** ** Properties of the command *)

(** C9 as amended: a rejected transfer is followed by the failure event
    and exit code 1 only, and no table is built. A resolved transfer
    ends with the finish event, the destruction of the instance and exit
    code 0; before that the table is built from [results.engine] unless
    [results] is [undefined] or [null], a table that rendered is printed
    right away, and when no table rendered the error message is printed
    in its place. *)
Theorem import_outcome_follows_transfer
    (env : Env) (opts : JsValue) (w : World) (settled : Completion JsValue) :
  In (EvTransfer settled) (events (run env (importAction opts) w)) →
  match settled with
  | Rejected _ =>
      outcome (run env (importAction opts) w) = Exited 1
      ∧ (∃ before,
           events (run env (importAction opts) w)
           = (before ++ [EvTransfer settled;
                         EvTelemetry "didDEITSProcessFail";
                         EvExit 1 (exitMessageText "import" true)])%list)
      ∧ (∀ data rendered,
           ¬ In (EvBuildTransferTable data rendered)
               (events (run env (importAction opts) w)))
      ∧ ¬ In (EvTelemetry "didDEITSProcessFinish")
            (events (run env (importAction opts) w))
      ∧ ¬ In EvDestroy (events (run env (importAction opts) w))
  | Resolved results =>
      outcome (run env (importAction opts) w) = Exited 0
      ∧ (∃ before,
           events (run env (importAction opts) w)
           = (before ++ [EvTelemetry "didDEITSProcessFinish";
                         EvDestroy;
                         EvExit 0 (exitMessageText "import" false)])%list)
      ∧ ¬ In (EvTelemetry "didDEITSProcessFail")
            (events (run env (importAction opts) w))
      ∧ (isNullish results = false →
         In (EvBuildTransferTable (get results "engine")
               (env_buildTransferTable env (get results "engine")
                  (set_signal AbortTransfer w)))
            (events (run env (importAction opts) w)))
      ∧ (∀ data text,
           In (EvBuildTransferTable data (Some text))
              (events (run env (importAction opts) w)) →
           ∃ before,
             events (run env (importAction opts) w)
             = (before ++ [EvTransfer settled;
                           EvBuildTransferTable (get results "engine") (Some text);
                           EvConsoleLog text;
                           EvTelemetry "didDEITSProcessFinish";
                           EvDestroy;
                           EvExit 0 (exitMessageText "import" false)])%list)
      ∧ ((∀ data text,
            ¬ In (EvBuildTransferTable data (Some text))
                (events (run env (importAction opts) w))) →
         ∃ before,
           events (run env (importAction opts) w)
           = (before ++ [EvConsoleError displayErrorMessage;
                         EvTelemetry "didDEITSProcessFinish";
                         EvDestroy;
                         EvExit 0 (exitMessageText "import" false)])%list)
  end.
Proof.
  intros Hin. destruct (isObject opts) eqn:Hobj;
    unfold importAction in *; rewrite Hobj in *; cbn in *;
    [|in_events Hin].
  destruct (env_transfer env _ _) as [results|err]; cbn in *.
  - destruct results; unfold get, set_signal in *; cbn in *;
      try destruct (env_buildTransferTable env _ _) as [text|] eqn:Hrender;
      cbn in *; try rewrite Hrender;
      in_events Hin; injection Hin as <-;
      (split; [reflexivity|]); (split; [suffix_events|]);
      (split; [not_in_events|]);
      (split; [first [intros Hn; discriminate Hn
                     | intros _; cbn; rewrite Hrender;
                       do 13 right; left; reflexivity]|]);
      (split;
       [intros data text' Hb; in_events Hb; injection Hb as _ <-;
        suffix_events
       |intros Hnone;
        first [suffix_events
              | exfalso; eapply Hnone; do 13 right; left; reflexivity]]).
  - in_events Hin. injection Hin as <-.
    split; [reflexivity|]. split; [suffix_events|].
    repeat split; not_in_events.
Qed.

(** ** Further properties of the command *)

(** X1: options that are not an object end the command at once: exit
    code 1 with the parse message, and nothing else has happened. *)
Theorem importAction_invalid_options
    (env : Env) (opts : JsValue) (w : World) :
  isObject opts = false →
  outcome (run env (importAction opts) w) = Exited 1
  ∧ world (run env (importAction opts) w) = w
  ∧ events (run env (importAction opts) w)
    = [EvExit 1 "Could not parse arguments"].
Proof.
  intros Hobj. unfold importAction. rewrite Hobj. cbn.
  repeat split; reflexivity.
Qed.

(** X2: exit code 0 is reported only at the end of a run in which the
    transfer resolved, the finish event was sent after it and the
    instance was destroyed after that; no failure event is sent in such
    a run. *)
Theorem importAction_exit_code
    (env : Env) (opts : JsValue) (w : World) :
  outcome (run env (importAction opts) w) = Exited 0 →
  ∃ results,
    precedes (EvTransfer (Resolved results))
      (EvTelemetry "didDEITSProcessFinish")
      (events (run env (importAction opts) w))
    ∧ precedes (EvTelemetry "didDEITSProcessFinish") EvDestroy
        (events (run env (importAction opts) w))
    ∧ last (events (run env (importAction opts) w))
      = Some (EvExit 0 (exitMessageText "import" false))
    ∧ ¬ In (EvTelemetry "didDEITSProcessFail")
          (events (run env (importAction opts) w)).
Proof.
  destruct (isObject opts) eqn:Hobj; unfold importAction; rewrite Hobj; cbn;
    [|discriminate].
  destruct (env_transfer env _ _) as [results|err]; cbn; [|discriminate].
  intros _. exists results.
  destruct results; cbn;
    try destruct (env_buildTransferTable env _ _); cbn;
    (split; [first [precedes_at 12%nat 14%nat | precedes_at 12%nat 15%nat]|]);
    (split; [first [precedes_at 14%nat 15%nat | precedes_at 15%nat 16%nat]|]);
    (split; [reflexivity | not_in_events]).
Qed.


(** X5: the destination is handed the very instance
    [createStrapiInstance] returned and is told not to destroy it. *)
Theorem destination_uses_created_instance
    (env : Env) (opts : JsValue) (w : World) (o : DestinationOptions) :
  In (EvCreateDestination o) (events (run env (importAction opts) w)) →
  getStrapi o = env_createStrapiInstance env w
  ∧ autoDestroy o = false.
Proof.
  intros Hin. destruct (isObject opts) eqn:Hobj.
  - destruct (importAction_run env opts w Hobj) as (rest & Hev & Hrest).
    rewrite Hev in Hin. simpl in Hin.
    destruct Hin as [Hin|[Hin|[Hin|[Hin|Hin]]]]; try discriminate Hin.
    + injection Hin as <-. split; reflexivity.
    + apply Hrest in Hin. contradiction.
  - unfold importAction in Hin. rewrite Hobj in Hin. in_events Hin.
Qed.

(** X6: the destination's exclusion list and the engine's entity rule
    agree: the entities the engine drops are exactly those whose type the
    destination is told to leave alone. *)
Theorem destination_and_engine_agree_on_excluded_types
    (env : Env) (opts : JsValue) (w : World)
    (od : DestinationOptions) (oe : EngineOptions) (entity : Entity) :
  In (EvCreateDestination od) (events (run env (importAction opts) w)) →
  In (EvCreateEngine oe) (events (run env (importAction opts) w)) →
  applyRules (entities (rules oe)) entity = false
  ↔ (type entity ∈ restore_entities_exclude od).
Proof.
  intros Hd He. destruct (isObject opts) eqn:Hobj.
  - destruct (importAction_run env opts w Hobj) as (rest & Hev & Hrest).
    rewrite Hev in Hd, He. simpl in Hd, He.
    destruct Hd as [Hd|[Hd|[Hd|[Hd|Hd]]]]; try discriminate Hd;
      [|apply Hrest in Hd; contradiction].
    destruct He as [He|[He|[He|[He|He]]]]; try discriminate He;
      [|apply Hrest in He; contradiction].
    injection Hd as <-. injection He as <-.
    change (restore_entities_exclude
              (destinationOptions (env_createStrapiInstance env w) opts))
      with DEFAULT_IGNORED_CONTENT_TYPES.
    pose proof (entity_rules_accept opts entity) as Hacc.
    destruct (applyRules (entities (rules (engineOptions opts))) entity).
    + split; [discriminate|]. intros Hin.
      exfalso. apply (proj1 Hacc); [reflexivity|exact Hin].
    + split; [intros _|reflexivity].
      destruct (decide (type entity ∈ DEFAULT_IGNORED_CONTENT_TYPES))
        as [Hin|Hnin]; [exact Hin|].
      apply (proj2 Hacc) in Hnin. discriminate Hnin.
  - unfold importAction in Hd. rewrite Hobj in Hd. in_events Hd.
Qed.

(** X7: the link rule drops a link only for the sake of an endpoint: a
    link is accepted exactly when the entity rule accepts every entity of
    its left and of its right endpoint type. *)
Theorem link_accepted_iff_endpoints_accepted (opts : JsValue) (link : Link) :
  applyRules (links (rules (engineOptions opts))) link = true
  ↔ (∀ entity : Entity,
        type entity = ref_type (left link)
        ∨ type entity = ref_type (right link) →
        applyRules (entities (rules (engineOptions opts))) entity = true).
Proof.
  rewrite link_rules_accept. split.
  - intros [Hl Hr] entity Hty. apply entity_rules_accept.
    destruct Hty as [-> | ->]; assumption.
  - intros Hall. split.
    + apply (entity_rules_accept opts
               {| type := ref_type (left link); id := ref_id (left link);
                  attributes := ∅ |}).
      apply Hall. left. reflexivity.
    + apply (entity_rules_accept opts
               {| type := ref_type (right link); id := ref_id (right link);
                  attributes := ∅ |}).
      apply Hall. right. reflexivity.
Qed.

(** ** Further properties of the option mapping *)

(** X8: the destination and the engine are configured from the six
    transfer options only: setting any other option, such as the
    encryption key, changes neither configuration. *)
Theorem transfer_options_ignore_other_keys
    (si : StrapiInstance) (m : gmap string JsValue) (k : string) (v : JsValue) :
  k ∉ transferOptionKeys →
  destinationOptions si (JsObject (<[k := v]> m))
  = destinationOptions si (JsObject m)
  ∧ engineOptions (JsObject (<[k := v]> m)) = engineOptions (JsObject m).
Proof.
  unfold transferOptionKeys. intros Hk.
  apply not_elem_of_cons in Hk as [H1 Hk]. apply not_elem_of_cons in Hk as [H2 Hk].
  apply not_elem_of_cons in Hk as [H3 Hk]. apply not_elem_of_cons in Hk as [H4 Hk].
  apply not_elem_of_cons in Hk as [H5 Hk]. apply not_elem_of_cons in Hk as [H6 _].
  unfold destinationOptions, engineOptions, get.
  rewrite !lookup_insert_ne by assumption. split; reflexivity.
Qed.

(** X9: the file source is configured from [file], [decompress],
    [decrypt] and [key] only: setting any other option leaves the source
    options as they were. *)
Theorem source_options_ignore_other_keys
    (m : gmap string JsValue) (k : string) (v : JsValue) :
  k ∉ sourceOptionKeys →
  getLocalFileSourceOptions (JsObject (<[k := v]> m))
  = getLocalFileSourceOptions (JsObject m).
Proof.
  unfold sourceOptionKeys. intros Hk.
  apply not_elem_of_cons in Hk as [H1 Hk]. apply not_elem_of_cons in Hk as [H2 Hk].
  apply not_elem_of_cons in Hk as [H3 Hk]. apply not_elem_of_cons in Hk as [H4 _].
  unfold getLocalFileSourceOptions, get.
  rewrite !lookup_insert_ne by assumption. reflexivity.
Qed.

(** X10: giving a strategy its default value explicitly configures the
    same strategy as leaving the option out, whatever the default is. *)
Theorem explicit_default_same_as_unset
    (si : StrapiInstance) (m : gmap string JsValue) :
  strategy (destinationOptions si
              (JsObject (<["conflictStrategy" := DEFAULT_CONFLICT_STRATEGY]> m)))
  = strategy (destinationOptions si (JsObject (delete "conflictStrategy" m)))
  ∧ versionStrategy (engineOptions
                       (JsObject (<["versionStrategy" := DEFAULT_VERSION_STRATEGY]> m)))
    = versionStrategy (engineOptions (JsObject (delete "versionStrategy" m)))
  ∧ schemaStrategy (engineOptions
                      (JsObject (<["schemaStrategy" := DEFAULT_SCHEMA_STRATEGY]> m)))
    = schemaStrategy (engineOptions (JsObject (delete "schemaStrategy" m))).
Proof.
  unfold destinationOptions, engineOptions, get; simpl.
  rewrite !lookup_insert_eq, !lookup_delete_eq. simpl. unfold js_or.
  destruct (truthy DEFAULT_CONFLICT_STRATEGY),
    (truthy DEFAULT_VERSION_STRATEGY), (truthy DEFAULT_SCHEMA_STRATEGY);
    repeat split; reflexivity.
Qed.

(** X11: the validation of the options does not ask for a file: with an
    array, or with an object that has no [file], the command does not
    stop at the validation but goes on to create the file source, with
    an undefined path. *)
Theorem importAction_does_not_require_file
    (env : Env) (w : World) :
  (∀ xs : list JsValue,
      head (events (run env (importAction (JsArray xs)) w))
      = Some (EvCreateSource
                {| file_path := JsUndefined; compression_enabled := false;
                   encryption_enabled := false; encryption_key := JsUndefined |}))
  ∧ (∀ m : gmap string JsValue,
      ∃ o, head (events (run env (importAction (JsObject (delete "file" m))) w))
           = Some (EvCreateSource o)
           ∧ file_path o = JsUndefined).
Proof.
  split.
  - intros xs. unfold importAction. cbn. reflexivity.
  - intros m. unfold importAction. cbn.
    eexists. split; [reflexivity|].
    unfold getLocalFileSourceOptions, get; simpl.
    rewrite lookup_delete_eq. reflexivity.
Qed.

(** ** Further properties of the schema-diff handler *)

(** X12: the handler touches nothing on the heap but the [diffs] property
    of its context: every other property and every other object reads as
    before, and no object appears or disappears. *)
Theorem handler_changes_only_diffs
    (env : Env) (opts : JsValue) (context : Ref) (w : World)
    (r : Ref) (k : string) :
  r ≠ context ∨ k ≠ "diffs" →
  property (world (run env (schemaDiffHandler opts context) w)) r k
  = property w r k
  ∧ dom (heap (world (run env (schemaDiffHandler opts context) w)))
    = dom (heap w).
Proof.
  intros Hne. unfold schemaDiffHandler, property. cbn.
  destruct (env_confirmMessage env _ _ _); cbn; [|split; reflexivity].
  split; [|apply dom_alter_L].
  destruct (decide (r = context)) as [->|Hr].
  - destruct Hne as [Hne|Hk]; [contradiction|].
    rewrite lookup_alter_eq. destruct (heap w !! context) as [obj|]; simpl;
      [|reflexivity].
    apply lookup_insert_ne. intros Heq. apply Hk. symmetry. exact Heq.
  - rewrite lookup_alter_ne by (intros Heq; apply Hr; symmetry; exact Heq).
    reflexivity.
Qed.

(** X13: the prompt is asked while the handler that exits the process is
    installed, with the user's [force] option as given, and the plain
    abort handler is back in place before [next] is called and when the
    handler returns. *)
Theorem handler_signal_protocol
    (env : Env) (opts : JsValue) (context : Ref) (w : World) :
  take 3 (events (run env (schemaDiffHandler opts context) w))
  = [EvSetSignalHandler AbortTransferThenExit;
     EvConfirmMessage schemaDiffMessage (get opts "force")
       (env_confirmMessage env schemaDiffMessage (get opts "force")
          (set_signal AbortTransferThenExit w));
     EvSetSignalHandler AbortTransfer]
  ∧ (∃ snapshot,
       last (events (run env (schemaDiffHandler opts context) w))
       = Some (EvNext context snapshot)
       ∧ precedes (EvSetSignalHandler AbortTransfer) (EvNext context snapshot)
           (events (run env (schemaDiffHandler opts context) w)))
  ∧ signalHandler (world (run env (schemaDiffHandler opts context) w))
    = Some AbortTransfer.
Proof.
  unfold schemaDiffHandler. cbn.
  destruct (env_confirmMessage env _ _ _); cbn.
  - split; [reflexivity|]. split; [|reflexivity].
    eexists. split; [reflexivity|]. precedes_at 2%nat 4%nat.
  - split; [reflexivity|]. split; [|reflexivity].
    eexists. split; [reflexivity|]. precedes_at 2%nat 3%nat.
Qed.

(** X14: once a confirmed run has emptied the diff list, a later run of
    the handler on the same context hands [next] the emptied list again,
    whatever the answer then is. *)
Theorem handler_cleared_diffs_stay_cleared
    (env env' : Env) (opts opts' : JsValue) (context : Ref) (w : World)
    (obj : gmap string JsValue) :
  heap w !! context = Some obj →
  In (EvConfirmMessage schemaDiffMessage (get opts "force") true)
     (events (run env (schemaDiffHandler opts context) w)) →
  last (events (run env' (schemaDiffHandler opts' context)
                  (world (run env (schemaDiffHandler opts context) w))))
  = Some (EvNext context (Some (<["diffs" := JsArray []]> obj)))
  ∧ heap (world (run env' (schemaDiffHandler opts' context)
                   (world (run env (schemaDiffHandler opts context) w))))
      !! context
    = Some (<["diffs" := JsArray []]> obj).
Proof.
  intros Hctx Hyes. unfold schemaDiffHandler in *. cbn in *.
  destruct (env_confirmMessage env _ _ _); cbn in *; [|in_events Hyes].
  destruct (env_confirmMessage env' _ _ _); cbn.
  - rewrite !lookup_alter_eq, Hctx. simpl.
    rewrite insert_insert_eq. split; reflexivity.
  - rewrite !lookup_alter_eq, Hctx. simpl. split; reflexivity.
Qed.

(** X15: when the diff list of the context is already empty, the handler
    leaves the whole heap as it found it, whatever the answer is. *)
Theorem handler_empty_diffs_untouched
    (env : Env) (opts : JsValue) (context : Ref) (w : World)
    (obj : gmap string JsValue) :
  heap w !! context = Some obj →
  obj !! "diffs" = Some (JsArray []) →
  heap (world (run env (schemaDiffHandler opts context) w)) = heap w.
Proof.
  intros Hctx Hdiffs. unfold schemaDiffHandler. cbn.
  destruct (env_confirmMessage env _ _ _); cbn; [|reflexivity].
  apply map_eq. intros r. destruct (decide (r = context)) as [->|Hr].
  - rewrite lookup_alter_eq, Hctx. simpl. f_equal.
    apply insert_id. exact Hdiffs.
  - rewrite lookup_alter_ne by (intros Heq; apply Hr; symmetry; exact Heq).
    reflexivity.
Qed.

End ImportCommand.


(** ** The definitions at sample inputs *)

Example entityFilter_article :
  entityFilter sample_ignored sample_article = true.
Proof. reflexivity. Qed.

Example entityFilter_admin_user :
  entityFilter sample_ignored sample_admin_user = false.
Proof. reflexivity. Qed.

Example linkFilter_article_category :
  linkFilter sample_ignored sample_link = true.
Proof. reflexivity. Qed.

Example getLocalFileSourceOptions_sample :
  getLocalFileSourceOptions sample_opts
  = {| file_path := JsString "backup.tar.gz.enc";
       compression_enabled := true;
       encryption_enabled := true;
       encryption_key := JsString "secret" |}.
Proof. reflexivity. Qed.

Example getLocalFileSourceOptions_key_only :
  getLocalFileSourceOptions
    (JsObject {[ "file" := JsString "backup.tar"; "key" := JsString "secret" ]})
  = {| file_path := JsString "backup.tar";
       compression_enabled := false;
       encryption_enabled := false;
       encryption_key := JsString "secret" |}.
Proof. reflexivity. Qed.

Example importAction_rejects_non_object :
  run (sample_env true (Resolved sample_results) None)
    (importAction sample_conflict_strategy sample_version_strategy
       sample_schema_strategy sample_ignored sample_exitMessageText
       (JsString "backup.tar"))
    sample_world
  = {| outcome := Exited 1;
       world := sample_world;
       events := [EvExit 1 "Could not parse arguments"] |}.
Proof. reflexivity. Qed.

Example importAction_failed_transfer :
  events
    (run (sample_env true (Rejected (JsString "connection lost")) None)
       (importAction sample_conflict_strategy sample_version_strategy
          sample_schema_strategy sample_ignored sample_exitMessageText
          sample_opts)
       sample_world)
  = [EvCreateSource (getLocalFileSourceOptions sample_opts);
     EvCreateStrapiInstance;
     EvCreateDestination
       (destinationOptions sample_conflict_strategy sample_ignored
          {| instance_id := 1 |} sample_opts);
     EvCreateEngine
       (engineOptions sample_version_strategy sample_schema_strategy
          sample_ignored sample_opts);
     EvOnDiagnostic "import";
     EvLoadersFactory;
     EvOnSchemaDiff;
     EvProgressOn "stage::start";
     EvProgressOn "stage::finish";
     EvProgressOn "stage::progress";
     EvProgressOn "transfer::start";
     EvSetSignalHandler AbortTransfer;
     EvTransfer (Rejected (JsString "connection lost"));
     EvTelemetry "didDEITSProcessFail";
     EvExit 1 "Import process failed."].
Proof. reflexivity. Qed.

Example schemaDiffHandler_declined :
  events
    (run (sample_env false (Resolved sample_results) None)
       (schemaDiffHandler sample_opts 0%nat) sample_world)
  = [EvSetSignalHandler AbortTransferThenExit;
     EvConfirmMessage schemaDiffMessage JsUndefined false;
     EvSetSignalHandler AbortTransfer;
     EvNext 0%nat (Some sample_context)].
Proof. reflexivity. Qed.

(** ** The theorems at sample inputs *)

Lemma accepted_link_has_accepted_endpoints_witness :
  applyRules
    (entities (rules (engineOptions sample_version_strategy sample_schema_strategy
                        sample_ignored sample_opts)))
    sample_article = true.
Proof.
  apply (accepted_link_has_accepted_endpoints
           sample_version_strategy sample_schema_strategy sample_ignored
           sample_opts sample_link sample_article).
  - reflexivity.
  - left. reflexivity.
Defined.

Lemma destination_excludes_ignored_types_witness :
  restore_entities_exclude
    (destinationOptions sample_conflict_strategy sample_ignored
       {| instance_id := 1 |} sample_opts)
  = sample_ignored
  ∧ destinationOptions sample_conflict_strategy sample_ignored
      {| instance_id := 1 |} sample_opts
    = destinationOptions sample_conflict_strategy sample_ignored
        (getStrapi (destinationOptions sample_conflict_strategy sample_ignored
                      {| instance_id := 1 |} sample_opts))
        sample_opts.
Proof.
  apply (destination_excludes_ignored_types
           sample_conflict_strategy sample_version_strategy
           sample_schema_strategy sample_ignored sample_exitMessageText
           (sample_env true (Resolved sample_results) (Some "table"))
           sample_opts sample_world).
  vm_compute. right; right; left. reflexivity.
Defined.

Lemma strategies_default_when_falsy_witness :
  defaulted (get sample_opts "conflictStrategy") sample_conflict_strategy
    (JsString "restore")
  ∧ defaulted (get sample_opts "versionStrategy") sample_version_strategy
      (JsString "exact")
  ∧ defaulted (get sample_opts "schemaStrategy") sample_schema_strategy
      (JsString "strict").
Proof.
  apply (strategies_default_when_falsy
           sample_conflict_strategy sample_version_strategy
           sample_schema_strategy sample_ignored sample_exitMessageText
           (sample_env true (Resolved sample_results) (Some "table"))
           sample_opts sample_world
           (destinationOptions sample_conflict_strategy sample_ignored
              {| instance_id := 1 |} sample_opts)
           (engineOptions sample_version_strategy sample_schema_strategy
              sample_ignored sample_opts)).
  - vm_compute. right; right; left. reflexivity.
  - vm_compute. right; right; right; left. reflexivity.
Defined.

(** C6 as stated fails: the conflict strategy supplied is the empty
    string, and the destination is created with ["restore"] instead. *)
Lemma empty_strategy_not_passed_through :
  get sample_opts_empty_strategy "conflictStrategy" = JsString ""
  ∧ ∃ o,
      In (EvCreateDestination o)
         (events
            (run (sample_env true (Resolved sample_results) (Some "table"))
               (importAction sample_conflict_strategy sample_version_strategy
                  sample_schema_strategy sample_ignored sample_exitMessageText
                  sample_opts_empty_strategy)
               sample_world))
      ∧ strategy o = JsString "restore"
      ∧ strategy o ≠ get sample_opts_empty_strategy "conflictStrategy".
Proof.
  split; [reflexivity|].
  exists (destinationOptions sample_conflict_strategy sample_ignored
            {| instance_id := 1 |} sample_opts_empty_strategy).
  split; [|split].
  - vm_compute. right; right; left. reflexivity.
  - reflexivity.
  - vm_compute. discriminate.
Qed.

Lemma handler_confirmed_clears_diffs_and_resumes_witness :
  heap (world (run (sample_env true (Resolved sample_results) None)
                 (schemaDiffHandler sample_opts 0%nat) sample_world)) !! 0%nat
  = Some (<["diffs" := JsArray []]> sample_context).
Proof.
  apply (handler_confirmed_clears_diffs_and_resumes
           (sample_env true (Resolved sample_results) None)
           sample_opts 0%nat sample_world sample_context).
  - reflexivity.
  - simpl. right; left. reflexivity.
Defined.

Lemma handler_declined_keeps_diffs_witness :
  heap (world (run (sample_env false (Resolved sample_results) None)
                 (schemaDiffHandler sample_opts 0%nat) sample_world))
  = heap sample_world.
Proof.
  apply (handler_declined_keeps_diffs
           (sample_env false (Resolved sample_results) None)
           sample_opts 0%nat sample_world sample_context
           (JsString "api::article.article.attributes.title") []).
  - reflexivity.
  - reflexivity.
  - simpl. right; left. reflexivity.
Defined.

Lemma import_outcome_follows_transfer_witness :
  outcome
    (run (sample_env true (Rejected (JsString "connection lost")) None)
       (importAction sample_conflict_strategy sample_version_strategy
          sample_schema_strategy sample_ignored sample_exitMessageText
          sample_opts)
       sample_world)
  = Exited 1.
Proof.
  apply (import_outcome_follows_transfer
           sample_conflict_strategy sample_version_strategy
           sample_schema_strategy sample_ignored sample_exitMessageText
           (sample_env true (Rejected (JsString "connection lost")) None)
           sample_opts sample_world (Rejected (JsString "connection lost"))).
  vm_compute. do 12 right. left. reflexivity.
Defined.

(** C9 as stated fails: the transfer returns a result that carries no
    [engine] data, no table renders from it, and the command prints the
    error message instead of a table and ends with exit code 0. *)
Lemma result_table_not_always_printed :
  In (EvTransfer (Resolved sample_results_without_engine))
     (events
        (run (sample_env true (Resolved sample_results_without_engine) None)
           (importAction sample_conflict_strategy sample_version_strategy
              sample_schema_strategy sample_ignored sample_exitMessageText
              sample_opts)
           sample_world))
  ∧ outcome
      (run (sample_env true (Resolved sample_results_without_engine) None)
         (importAction sample_conflict_strategy sample_version_strategy
            sample_schema_strategy sample_ignored sample_exitMessageText
            sample_opts)
         sample_world)
    = Exited 0
  ∧ In (EvBuildTransferTable JsUndefined None)
       (events
          (run (sample_env true (Resolved sample_results_without_engine) None)
             (importAction sample_conflict_strategy sample_version_strategy
                sample_schema_strategy sample_ignored sample_exitMessageText
                sample_opts)
             sample_world))
  ∧ In (EvConsoleError displayErrorMessage)
       (events
          (run (sample_env true (Resolved sample_results_without_engine) None)
             (importAction sample_conflict_strategy sample_version_strategy
                sample_schema_strategy sample_ignored sample_exitMessageText
                sample_opts)
             sample_world))
  ∧ ∀ text,
      ¬ In (EvConsoleLog text)
          (events
             (run (sample_env true (Resolved sample_results_without_engine) None)
                (importAction sample_conflict_strategy sample_version_strategy
                   sample_schema_strategy sample_ignored sample_exitMessageText
                   sample_opts)
                sample_world)).
Proof.
  split; [|split; [|split; [|split]]].
  - vm_compute. do 12 right. left. reflexivity.
  - reflexivity.
  - vm_compute. do 13 right. left. reflexivity.
  - vm_compute. do 14 right. left. reflexivity.
  - intros text Hin. vm_compute in Hin.
    repeat (destruct Hin as [Hin|Hin]; [discriminate Hin|]). exact Hin.
Qed.

Lemma importAction_invalid_options_witness :
  outcome
    (run (sample_env true (Resolved sample_results) None)
       (importAction sample_conflict_strategy sample_version_strategy
          sample_schema_strategy sample_ignored sample_exitMessageText
          (JsString "backup.tar"))
       sample_world)
  = Exited 1.
Proof.
  apply (importAction_invalid_options
           sample_conflict_strategy sample_version_strategy
           sample_schema_strategy sample_ignored sample_exitMessageText
           (sample_env true (Resolved sample_results) None)
           (JsString "backup.tar") sample_world).
  reflexivity.
Defined.


Lemma destination_uses_created_instance_witness :
  getStrapi
    (destinationOptions sample_conflict_strategy sample_ignored
       {| instance_id := 1 |} sample_opts)
  = {| instance_id := 1 |}.
Proof.
  apply (destination_uses_created_instance
           sample_conflict_strategy sample_version_strategy
           sample_schema_strategy sample_ignored sample_exitMessageText
           (sample_env true (Resolved sample_results) (Some "table"))
           sample_opts sample_world
           (destinationOptions sample_conflict_strategy sample_ignored
              {| instance_id := 1 |} sample_opts)).
  vm_compute. right; right; left. reflexivity.
Defined.

Lemma destination_and_engine_agree_on_excluded_types_witness :
  applyRules
    (entities (rules (engineOptions sample_version_strategy
                        sample_schema_strategy sample_ignored sample_opts)))
    sample_admin_user = false
  ↔ (type sample_admin_user
     ∈ restore_entities_exclude
         (destinationOptions sample_conflict_strategy sample_ignored
            {| instance_id := 1 |} sample_opts)).
Proof.
  apply (destination_and_engine_agree_on_excluded_types
           sample_conflict_strategy sample_version_strategy
           sample_schema_strategy sample_ignored sample_exitMessageText
           (sample_env true (Resolved sample_results) (Some "table"))
           sample_opts sample_world).
  - vm_compute. right; right; left. reflexivity.
  - vm_compute. right; right; right; left. reflexivity.
Defined.

Lemma transfer_options_ignore_other_keys_witness :
  engineOptions sample_version_strategy sample_schema_strategy sample_ignored
    (JsObject (<["key" := JsString "secret"]>
                 {[ "versionStrategy" := JsString "exact" ]}))
  = engineOptions sample_version_strategy sample_schema_strategy sample_ignored
      (JsObject {[ "versionStrategy" := JsString "exact" ]}).
Proof.
  apply (transfer_options_ignore_other_keys
           sample_conflict_strategy sample_version_strategy
           sample_schema_strategy sample_ignored
           {| instance_id := 1 |}
           {[ "versionStrategy" := JsString "exact" ]}
           "key" (JsString "secret")).
  unfold transferOptionKeys. rewrite !not_elem_of_cons.
  repeat split; try discriminate. apply not_elem_of_nil.
Defined.

Lemma source_options_ignore_other_keys_witness :
  getLocalFileSourceOptions
    (JsObject (<["force" := JsBool true]> {[ "file" := JsString "backup.tar" ]}))
  = getLocalFileSourceOptions (JsObject {[ "file" := JsString "backup.tar" ]}).
Proof.
  apply (source_options_ignore_other_keys
           {[ "file" := JsString "backup.tar" ]} "force" (JsBool true)).
  unfold sourceOptionKeys. rewrite !not_elem_of_cons.
  repeat split; try discriminate. apply not_elem_of_nil.
Defined.

Lemma handler_changes_only_diffs_witness :
  property
    (world (run (sample_env true (Resolved sample_results) None)
              (schemaDiffHandler sample_opts 0%nat) sample_world_full))
    0%nat "ignoredDiffs"
  = property sample_world_full 0%nat "ignoredDiffs".
Proof.
  apply (handler_changes_only_diffs
           (sample_env true (Resolved sample_results) None)
           sample_opts 0%nat sample_world_full 0%nat "ignoredDiffs").
  right. discriminate.
Defined.

Lemma handler_cleared_diffs_stay_cleared_witness :
  last
    (events
       (run (sample_env false (Resolved sample_results) None)
          (schemaDiffHandler sample_opts 0%nat)
          (world (run (sample_env true (Resolved sample_results) None)
                    (schemaDiffHandler sample_opts 0%nat) sample_world))))
  = Some (EvNext 0%nat (Some (<["diffs" := JsArray []]> sample_context))).
Proof.
  apply (handler_cleared_diffs_stay_cleared
           (sample_env true (Resolved sample_results) None)
           (sample_env false (Resolved sample_results) None)
           sample_opts sample_opts 0%nat sample_world sample_context).
  - reflexivity.
  - simpl. right; left. reflexivity.
Defined.

Lemma handler_empty_diffs_untouched_witness :
  heap (world (run (sample_env true (Resolved sample_results) None)
                 (schemaDiffHandler sample_opts 0%nat) sample_world_cleared))
  = heap sample_world_cleared.
Proof.
  apply (handler_empty_diffs_untouched
           (sample_env true (Resolved sample_results) None)
           sample_opts 0%nat sample_world_cleared
           {[ "diffs" := JsArray [] ]}).
  - reflexivity.
  - reflexivity.
Defined.

Lemma importAction_exit_code_witness :
  ∃ results,
    precedes (EvTransfer (Resolved results))
      (EvTelemetry "didDEITSProcessFinish")
      (events
         (run (sample_env true (Resolved sample_results) (Some "table"))
            (importAction sample_conflict_strategy sample_version_strategy
               sample_schema_strategy sample_ignored sample_exitMessageText
               sample_opts)
            sample_world))
    ∧ precedes (EvTelemetry "didDEITSProcessFinish") EvDestroy
        (events
           (run (sample_env true (Resolved sample_results) (Some "table"))
              (importAction sample_conflict_strategy sample_version_strategy
                 sample_schema_strategy sample_ignored sample_exitMessageText
                 sample_opts)
              sample_world))
    ∧ last (events
              (run (sample_env true (Resolved sample_results) (Some "table"))
                 (importAction sample_conflict_strategy sample_version_strategy
                    sample_schema_strategy sample_ignored sample_exitMessageText
                    sample_opts)
                 sample_world))
      = Some (EvExit 0 (sample_exitMessageText "import" false))
    ∧ ¬ In (EvTelemetry "didDEITSProcessFail")
          (events
             (run (sample_env true (Resolved sample_results) (Some "table"))
                (importAction sample_conflict_strategy sample_version_strategy
                   sample_schema_strategy sample_ignored sample_exitMessageText
                   sample_opts)
                sample_world)).
Proof.
  apply (importAction_exit_code
           sample_conflict_strategy sample_version_strategy
           sample_schema_strategy sample_ignored sample_exitMessageText
           (sample_env true (Resolved sample_results) (Some "table"))
           sample_opts sample_world).
  reflexivity.
Defined.
